(** * The application bootstrap configuration of [src/app/app.config.ts]

    The module exports one constant, [appConfig], an [ApplicationConfig] whose
    [providers] array holds the results of nine framework provider calls.  The
    provider functions belong to the framework, so a call is represented by
    the constructor named after the function, applied to the arguments of the
    call: what the hosting framework can read off the record is which
    function was called, in which position, with which arguments.

    The module reads two things it does not define: the development-build
    predicate [isDevMode] of the framework and the route table [routes] of
    [./app.routes].  Both are arguments of [appConfig] here. *)

From stdpp Require Import base strings gmap list.
From Stdlib Require Import ZArith.

(** ** Values of option objects *)

(** The primitive values an options object literal can hold. *)
Inductive JsValue : Type :=
  | JBool (b : bool)
  | JNum (n : Z)
  | JStr (s : string).

#[global] Instance JsValue_eq_dec : EqDecision JsValue.
Proof. solve_decision. Defined.

(** An object literal [{ k1: v1, ..., kn: vn }]: the properties are defined
    from left to right, a later one replacing an earlier one of the same
    name. *)
Definition js_object (fields : list (string * JsValue)) : gmap string JsValue :=
  foldl (λ o kv, <[kv.1 := kv.2]> o) ∅ fields.

(** ** The framework's features *)

(** Features accepted by [provideClientHydration].  The program passes
    [withEventReplay]; the others are the framework's remaining nullary
    hydration features. *)
Inductive HydrationFeature : Type :=
  | withEventReplay
  | withNoHttpTransferCache
  | withI18nSupport
  | withIncrementalHydration.

#[global] Instance HydrationFeature_eq_dec : EqDecision HydrationFeature.
Proof. solve_decision. Defined.

(** Features accepted by [provideHttpClient].  The program passes
    [withFetch]; the others are the framework's remaining nullary HTTP
    features. *)
Inductive HttpFeature : Type :=
  | withFetch
  | withInterceptorsFromDi
  | withJsonpSupport
  | withNoXsrfProtection.

#[global] Instance HttpFeature_eq_dec : EqDecision HttpFeature.
Proof. solve_decision. Defined.

(** ** External collaborators *)

(** The types of the arguments that the program never builds itself: route
    definitions (owned by [./app.routes]), and the parameters of the router,
    UI-library, store and effects providers, which the program leaves out. *)
Class Collaborators : Type := {
  Route : Type;
  RouterFeature : Type;
  PrimeNGConfig : Type;
  ReducerMap : Type;
  StoreConfig : Type;
  EffectSource : Type;
}.

(** ** Providers *)

Section Providers.
Context `{Collaborators}.

(** One constructor per provider function the module imports, with the
    parameters of its signature: variadic parameters are lists, optional
    parameters are options.  [provideZoneChangeDetection] is the framework's
    zone-based counterpart of [provideZonelessChangeDetection]; the module
    does not import it. *)
Inductive Provider : Type :=
  | provideBrowserGlobalErrorListeners
  | provideZonelessChangeDetection
  | provideZoneChangeDetection (options : gmap string JsValue)
  | provideRouter (routes : list Route) (features : list RouterFeature)
  | provideClientHydration (features : list HydrationFeature)
  | providePrimeNG (features : list PrimeNGConfig)
  | provideStore (reducers : option ReducerMap) (config : option StoreConfig)
  | provideEffects (effects : list EffectSource)
  | provideStoreDevtools (options : gmap string JsValue)
  | provideHttpClient (features : list HttpFeature).

Record ApplicationConfig : Type := { providers : list Provider }.

(** [export const appConfig: ApplicationConfig = { providers: [ ... ] }] *)
Definition appConfig (isDevMode : unit → bool) (routes : list Route)
  : ApplicationConfig :=
  {| providers := [
       provideBrowserGlobalErrorListeners;
       provideZonelessChangeDetection;
       provideRouter routes [];
       provideClientHydration [withEventReplay];
       providePrimeNG [];
       provideStore None None;
       provideEffects [];
       provideStoreDevtools
         (js_object [("maxAge", JNum 25);
                     ("logOnly", JBool (negb (isDevMode ())))]);
       provideHttpClient [withFetch]
     ] |}.

(** ** Reading the record *)

(** The options objects of the devtools entries, in list order. *)
Definition devtoolsOptions (c : ApplicationConfig) : list (gmap string JsValue) :=
  omap (λ p, match p with provideStoreDevtools o => Some o | _ => None end)
       (providers c).

(** The field [k] of each devtools options object. *)
Definition devtoolsField (k : string) (c : ApplicationConfig)
  : list (option JsValue) :=
  (λ o : gmap string JsValue, o !! k) <$> devtoolsOptions c.

Definition maxAge : ApplicationConfig → list (option JsValue) :=
  devtoolsField "maxAge".
Definition logOnly : ApplicationConfig → list (option JsValue) :=
  devtoolsField "logOnly".

(** The feature lists of the HTTP client entries. *)
Definition httpFeatures (c : ApplicationConfig) : list (list HttpFeature) :=
  omap (λ p, match p with provideHttpClient fs => Some fs | _ => None end)
       (providers c).

(** The feature lists of the hydration entries. *)
Definition hydrationFeatures (c : ApplicationConfig)
  : list (list HydrationFeature) :=
  omap (λ p, match p with provideClientHydration fs => Some fs | _ => None end)
       (providers c).

(** The arguments of the store entries. *)
Definition storeArguments (c : ApplicationConfig)
  : list (option ReducerMap * option StoreConfig) :=
  omap (λ p, match p with provideStore r g => Some (r, g) | _ => None end)
       (providers c).

(** The argument lists of the effects entries. *)
Definition effectsArguments (c : ApplicationConfig) : list (list EffectSource) :=
  omap (λ p, match p with provideEffects es => Some es | _ => None end)
       (providers c).

End Providers.

(** ** The recognised options of the external interface *)

(** The rows of the option table of the external interface: global error
    listeners, change-detection mode, router, hydration with event replay,
    UI-library defaults, state container / effects, devtools, HTTP
    transport. *)
Inductive ConfigOption : Type :=
  | GlobalErrorListeners
  | ChangeDetectionMode
  | RouterOption
  | HydrationEventReplay
  | UiLibraryDefaults
  | StateContainerEffects
  | Devtools
  | HttpTransportOption.

#[global] Instance ConfigOption_eq_dec : EqDecision ConfigOption.
Proof. solve_decision. Defined.

Definition all_options : list ConfigOption :=
  [GlobalErrorListeners; ChangeDetectionMode; RouterOption;
   HydrationEventReplay; UiLibraryDefaults; StateContainerEffects;
   Devtools; HttpTransportOption].

(** The two change-detection modes. *)
Inductive ChangeDetection : Type := ZoneBased | ZoneFree.

#[global] Instance ChangeDetection_eq_dec : EqDecision ChangeDetection.
Proof. solve_decision. Defined.

(** The transport of outgoing HTTP calls: the fetch-based one, or the
    framework's alternative. *)
Inductive HttpTransport : Type := FetchTransport | AlternativeTransport.

#[global] Instance HttpTransport_eq_dec : EqDecision HttpTransport.
Proof. solve_decision. Defined.

(** The transport a feature list selects: fetch when [withFetch] is among the
    features, the alternative otherwise. *)
Definition httpTransport (fs : list HttpFeature) : HttpTransport :=
  if decide (withFetch ∈ fs) then FetchTransport else AlternativeTransport.

(** Whether a hydration feature list enables event replay. *)
Definition eventReplayEnabled (fs : list HydrationFeature) : bool :=
  bool_decide (withEventReplay ∈ fs).

Section Options.
Context `{Collaborators}.

(** The row of the option table an entry of [providers] belongs to.  The
    store and the effects subsystem share the row "state container /
    effects". *)
Definition option_of (p : Provider) : ConfigOption :=
  match p with
  | provideBrowserGlobalErrorListeners => GlobalErrorListeners
  | provideZonelessChangeDetection => ChangeDetectionMode
  | provideZoneChangeDetection _ => ChangeDetectionMode
  | provideRouter _ _ => RouterOption
  | provideClientHydration _ => HydrationEventReplay
  | providePrimeNG _ => UiLibraryDefaults
  | provideStore _ _ => StateContainerEffects
  | provideEffects _ => StateContainerEffects
  | provideStoreDevtools _ => Devtools
  | provideHttpClient _ => HttpTransportOption
  end.

(** The entries of the record that belong to option [o], in list order. *)
Definition entries_for (o : ConfigOption) (c : ApplicationConfig)
  : list Provider :=
  filter (λ p, option_of p = o) (providers c).

(** The change-detection modes the record selects, in list order. *)
Definition changeDetectionModes (c : ApplicationConfig) : list ChangeDetection :=
  omap (λ p, match p with
             | provideZonelessChangeDetection => Some ZoneFree
             | provideZoneChangeDetection _ => Some ZoneBased
             | _ => None
             end) (providers c).

End Options.

(** ** Further readings of the record *)

Section Readings.
Context `{Collaborators}.

(** The arguments of the router entries: the route table and the router
    features. *)
Definition routerArguments (c : ApplicationConfig)
  : list (list Route * list RouterFeature) :=
  omap (λ p, match p with provideRouter r fs => Some (r, fs) | _ => None end)
       (providers c).

(** The argument lists of the UI-library entries. *)
Definition primeNGArguments (c : ApplicationConfig) : list (list PrimeNGConfig) :=
  omap (λ p, match p with providePrimeNG fs => Some fs | _ => None end)
       (providers c).

(** The name of the provider function an entry is the result of. *)
Definition provider_name (p : Provider) : string :=
  match p with
  | provideBrowserGlobalErrorListeners => "provideBrowserGlobalErrorListeners"
  | provideZonelessChangeDetection => "provideZonelessChangeDetection"
  | provideZoneChangeDetection _ => "provideZoneChangeDetection"
  | provideRouter _ _ => "provideRouter"
  | provideClientHydration _ => "provideClientHydration"
  | providePrimeNG _ => "providePrimeNG"
  | provideStore _ _ => "provideStore"
  | provideEffects _ => "provideEffects"
  | provideStoreDevtools _ => "provideStoreDevtools"
  | provideHttpClient _ => "provideHttpClient"
  end.

(** The entries of the record that do not belong to option [o], in list
    order. *)
Definition entries_outside (o : ConfigOption) (c : ApplicationConfig)
  : list Provider :=
  filter (λ p, option_of p ≠ o) (providers c).

End Readings.

(** ** A concrete environment

    Route definitions named by their path, and no values for the parameters
    the program leaves out. *)
Definition sample_collaborators : Collaborators :=
  {| Route := string;
     RouterFeature := Empty_set;
     PrimeNGConfig := Empty_set;
     ReducerMap := Empty_set;
     StoreConfig := Empty_set;
     EffectSource := Empty_set |}.

Definition sample_routes : list (@Route sample_collaborators) :=
  ["" ; "login" ; "**"]%string.

Definition devBuild : unit → bool := λ _, true.
Definition prodBuild : unit → bool := λ _, false.
(** A predicate that inspects its argument and answers as [devBuild]. *)
Definition devBuild' : unit → bool := λ u, match u with () => true end.

Definition sample_config (isDevMode : unit → bool) : @ApplicationConfig sample_collaborators :=
  @appConfig sample_collaborators isDevMode sample_routes.

(** * Properties of the configuration *)

Section Properties.
Context `{Collaborators}.
Implicit Types (isDevMode : unit → bool) (routes : list Route).

(** The options object of the devtools call, as the two insertions the
    literal performs. *)
Lemma devtoolsOptions_appConfig isDevMode routes :
  devtoolsOptions (appConfig isDevMode routes) =
    [ <["logOnly" := JBool (negb (isDevMode ()))]>
        (<["maxAge" := JNum 25]> ∅) ].
Proof. reflexivity. Qed.

Lemma logOnly_appConfig isDevMode routes :
  logOnly (appConfig isDevMode routes) = [Some (JBool (negb (isDevMode ())))].
Proof.
  unfold logOnly, devtoolsField. rewrite devtoolsOptions_appConfig. cbn.
  by rewrite lookup_insert_eq.
Qed.

Lemma maxAge_appConfig isDevMode routes :
  maxAge (appConfig isDevMode routes) = [Some (JNum 25)].
Proof.
  unfold maxAge, devtoolsField. rewrite devtoolsOptions_appConfig. cbn.
  rewrite lookup_insert_ne by done. by rewrite lookup_insert_eq.
Qed.

(** C1: the devtools [logOnly] field is the negation of the
    development-build predicate: it is [false] when [isDevMode()] is [true]
    and [true] when [isDevMode()] is [false]. *)
Theorem logOnly_negates_isDevMode isDevMode routes :
  logOnly (appConfig isDevMode routes) = [Some (JBool (negb (isDevMode ())))]
  ∧ (isDevMode () = true →
     logOnly (appConfig isDevMode routes) = [Some (JBool false)])
  ∧ (isDevMode () = false →
     logOnly (appConfig isDevMode routes) = [Some (JBool true)]).
Proof.
  rewrite logOnly_appConfig. split; [done|].
  split; intros ->; reflexivity.
Qed.

(** C2: the devtools [maxAge] field is 25 whatever the development-build
    predicate answers. *)
Theorem maxAge_is_25 isDevMode routes :
  maxAge (appConfig isDevMode routes) = [Some (JNum 25)].
Proof. apply maxAge_appConfig. Qed.

(** How many entries each row of the option table has. *)
Lemma entries_for_length isDevMode routes (o : ConfigOption) :
  length (entries_for o (appConfig isDevMode routes)) =
    if decide (o = StateContainerEffects) then 2 else 1.
Proof. destruct o; reflexivity. Qed.

(** C3, as amended: the [providers] list has nine entries; each of the
    seven options global error listeners, change-detection mode, router,
    hydration with event replay, UI-library defaults, devtools and HTTP
    transport has exactly one entry, and the option state container /
    effects has exactly two, the store entry followed by the effects entry.
    No option is missing. *)
Theorem entries_per_option isDevMode routes :
  length (providers (appConfig isDevMode routes)) = 9
  ∧ (∀ o : ConfigOption,
       length (entries_for o (appConfig isDevMode routes)) =
         if decide (o = StateContainerEffects) then 2 else 1)
  ∧ entries_for StateContainerEffects (appConfig isDevMode routes) =
      [provideStore None None; provideEffects []]
  ∧ (∀ o : ConfigOption, entries_for o (appConfig isDevMode routes) ≠ []).
Proof.
  split; [reflexivity|]. split; [apply entries_for_length|].
  split; [reflexivity|].
  intros o Hnil. pose proof (entries_for_length isDevMode routes o) as Hlen.
  rewrite Hnil in Hlen. cbn in Hlen. by case_decide.
Qed.

(** C4: the HTTP client entry always selects the fetch-based transport: its
    only feature is [withFetch], so the alternative transport is never
    selected. *)
Theorem http_transport_is_fetch isDevMode routes :
  httpFeatures (appConfig isDevMode routes) = [[withFetch]]
  ∧ httpTransport <$> httpFeatures (appConfig isDevMode routes)
      = [FetchTransport]
  ∧ AlternativeTransport ∉
      (httpTransport <$> httpFeatures (appConfig isDevMode routes)).
Proof.
  assert (Hfs : httpFeatures (appConfig isDevMode routes) = [[withFetch]])
    by reflexivity.
  rewrite Hfs. split; [done|]. split; [reflexivity|].
  intros Hin. cbn in Hin. apply list_elem_of_singleton in Hin. discriminate.
Qed.

(** C6: the change-detection entry is the zone-free one, never the
    zone-based one. *)
Theorem change_detection_is_zoneless isDevMode routes :
  changeDetectionModes (appConfig isDevMode routes) = [ZoneFree]
  ∧ (ZoneBased ∉ changeDetectionModes (appConfig isDevMode routes))
  ∧ entries_for ChangeDetectionMode (appConfig isDevMode routes)
      = [provideZonelessChangeDetection].
Proof.
  split; [reflexivity|]. split; [|reflexivity].
  intros Hin. cbn in Hin. apply list_elem_of_singleton in Hin. discriminate.
Qed.

(** C7: the hydration entry is present and has event replay enabled. *)
Theorem hydration_with_event_replay isDevMode routes :
  provideClientHydration [withEventReplay]
    ∈ providers (appConfig isDevMode routes)
  ∧ hydrationFeatures (appConfig isDevMode routes) = [[withEventReplay]]
  ∧ Forall (λ fs, eventReplayEnabled fs = true)
      (hydrationFeatures (appConfig isDevMode routes)).
Proof.
  split; [cbn; repeat constructor|]. split; [reflexivity|].
  repeat constructor.
Qed.

(** C9: the store and the effects entries are called with no arguments: no
    root reducers, no store configuration and no root effects are
    registered by the record. *)
Theorem store_and_effects_without_arguments isDevMode routes :
  storeArguments (appConfig isDevMode routes) = [(None, None)]
  ∧ effectsArguments (appConfig isDevMode routes) = [[]]
  ∧ provideStore None None ∈ providers (appConfig isDevMode routes)
  ∧ provideEffects [] ∈ providers (appConfig isDevMode routes).
Proof.
  split; [reflexivity|]. split; [reflexivity|].
  split; cbn; repeat constructor.
Qed.


End Properties.

(** * The properties at a concrete environment *)

Lemma logOnly_negates_isDevMode_witness :
  logOnly (sample_config devBuild) = [Some (JBool false)]
  ∧ logOnly (sample_config prodBuild) = [Some (JBool true)].
Proof.
  split.
  - apply (@logOnly_negates_isDevMode sample_collaborators devBuild sample_routes).
    reflexivity.
  - apply (@logOnly_negates_isDevMode sample_collaborators prodBuild sample_routes).
    reflexivity.
Defined.

(** C3, as stated, fails: the option state container / effects has two
    entries of the record, not one. *)
Lemma one_entry_per_option_fails :
  ¬ (∀ o : ConfigOption, length (entries_for o (sample_config devBuild)) = 1).
Proof.
  intros Hone. specialize (Hone StateContainerEffects).
  vm_compute in Hone. discriminate.
Qed.


(** * Dependence of the record on its environment *)

Section Dependence.
Context `{Collaborators}.
Implicit Types (isDevMode : unit → bool) (routes : list Route).

(** X1: the record determines its environment: two records are equal only
    if [isDevMode()] answered the same and the route tables are the same. *)
Theorem appConfig_determines_inputs isDevMode1 isDevMode2 routes1 routes2 :
  appConfig isDevMode1 routes1 = appConfig isDevMode2 routes2 →
  isDevMode1 () = isDevMode2 () ∧ routes1 = routes2.
Proof.
  intros Heq.
  assert (Hopts : devtoolsOptions (appConfig isDevMode1 routes1)
                  = devtoolsOptions (appConfig isDevMode2 routes2))
    by (by rewrite Heq).
  assert (Hlog : logOnly (appConfig isDevMode1 routes1)
                 = logOnly (appConfig isDevMode2 routes2))
    by (by rewrite Heq).
  assert (Hrt : routerArguments (appConfig isDevMode1 routes1)
                = routerArguments (appConfig isDevMode2 routes2))
    by (by rewrite Heq).
  rewrite !logOnly_appConfig in Hlog. cbn in Hrt.
  split; [|congruence].
  destruct (isDevMode1 ()), (isDevMode2 ()); cbn in Hlog; congruence.
Qed.

(** X2: the module passes the answer of [isDevMode()] to one call only, the
    devtools call, and there as the [logOnly] field only: which other
    provider functions are called, in which order and with which arguments,
    is the same in every build mode, and so is the options object of the
    devtools call once [logOnly] is removed.  This is about the calls the
    module makes, not about what the provider functions return. *)
Theorem isDevMode_reaches_only_logOnly isDevMode1 isDevMode2 routes :
  entries_outside Devtools (appConfig isDevMode1 routes)
    = entries_outside Devtools (appConfig isDevMode2 routes)
  ∧ delete "logOnly" <$> devtoolsOptions (appConfig isDevMode1 routes)
    = delete "logOnly" <$> devtoolsOptions (appConfig isDevMode2 routes)
  ∧ length (entries_outside Devtools (appConfig isDevMode1 routes)) = 8.
Proof.
  split; [reflexivity|]. split; [|reflexivity].
  rewrite !devtoolsOptions_appConfig. cbn.
  by rewrite !delete_insert_eq.
Qed.

(** X3: the router entry carries exactly the route table it was given, and
    no router features. *)
Theorem router_installs_routes isDevMode routes :
  routerArguments (appConfig isDevMode routes) = [(routes, [])]
  ∧ entries_for RouterOption (appConfig isDevMode routes)
      = [provideRouter routes []].
Proof. split; reflexivity. Qed.

(** X4: the route table reaches the record through the router entry only:
    all other entries are the same for every route table. *)
Theorem routes_reach_only_router isDevMode routes1 routes2 :
  entries_outside RouterOption (appConfig isDevMode routes1)
    = entries_outside RouterOption (appConfig isDevMode routes2)
  ∧ length (entries_outside RouterOption (appConfig isDevMode routes1)) = 8.
Proof. split; reflexivity. Qed.

(** X5: no provider function is called twice: the names of the functions
    behind the entries are pairwise different, and so are the entries. *)
Theorem providers_called_once isDevMode routes :
  NoDup (provider_name <$> providers (appConfig isDevMode routes))
  ∧ NoDup (providers (appConfig isDevMode routes)).
Proof.
  assert (Hnames : NoDup (provider_name <$> providers (appConfig isDevMode routes))).
  { cbn. apply (bool_decide_unpack _). vm_compute. reflexivity. }
  split; [exact Hnames|]. by apply NoDup_fmap_1 in Hnames.
Qed.

(** X6: the global error listeners and the UI library are each configured by
    one entry that takes no arguments. *)
Theorem listeners_and_ui_library_defaults isDevMode routes :
  entries_for GlobalErrorListeners (appConfig isDevMode routes)
    = [provideBrowserGlobalErrorListeners]
  ∧ entries_for UiLibraryDefaults (appConfig isDevMode routes)
    = [providePrimeNG []]
  ∧ primeNGArguments (appConfig isDevMode routes) = [[]].
Proof. repeat split. Qed.

(** X7: the state container is set up before its devtools: every entry of
    the option state container / effects stands before every devtools entry
    in the [providers] list. *)
Theorem store_before_devtools isDevMode routes (i j : nat) (p q : Provider) :
  providers (appConfig isDevMode routes) !! i = Some p →
  providers (appConfig isDevMode routes) !! j = Some q →
  option_of p = StateContainerEffects →
  option_of q = Devtools →
  i < j.
Proof.
  unfold appConfig, providers. generalize (js_object
    [("maxAge", JNum 25); ("logOnly", JBool (negb (isDevMode ())))]).
  intros options Hi Hj Hp Hq.
  destruct i as [|[|[|[|[|[|[|[|[|i]]]]]]]]]; simpl in Hi;
    try discriminate Hi; injection Hi as <-; try discriminate Hp;
    (destruct j as [|[|[|[|[|[|[|[|[|j]]]]]]]]]; simpl in Hj;
     try discriminate Hj; injection Hj as <-; try discriminate Hq; lia).
Qed.

End Dependence.

Lemma appConfig_determines_inputs_witness :
  devBuild () = devBuild' () ∧ sample_routes = sample_routes.
Proof.
  apply (@appConfig_determines_inputs sample_collaborators
           devBuild devBuild' sample_routes sample_routes).
  reflexivity.
Defined.

Lemma store_before_devtools_witness : 5 < 7.
Proof.
  apply (@store_before_devtools sample_collaborators devBuild sample_routes 5 7
           (provideStore None None)
           (provideStoreDevtools
              (js_object [("maxAge", JNum 25); ("logOnly", JBool false)])));
    reflexivity.
Defined.
